(** * Outbound caller: the agent callbacks (agent.py) and the dispatch form (app.py)

    A shallow embedding of the two Python files of the repository.

    - Python values are the ones [json.loads] can produce ([pyval]); a [str]
      is its sequence of Unicode code points ([pystr]); a [dict] is a finite
      map.
    - The code talks to the LiveKit agent framework, to the logger and to a
      subprocess.  Every such interaction is an [event] of a trace, and what
      a framework call answers (it returns, or it raises) is decided by a
      [Framework] that sees the events so far.  Exceptions are the subclasses
      of [Exception]; task cancellation is outside the model.
    - Coroutines are computations in the monad [M]: they start from the
      events so far, emit events, may update the object they run on, and
      return or raise. *)

From Stdlib Require Import ZArith NArith List String Ascii Bool Lia.
From Stdlib Require Import Floats.SpecFloat.
From stdpp Require Import base option list gmap.

Set Warnings "-register-all".
Local Open Scope N_scope.

(** ** Python strings *)

(** A Python [str]: a sequence of code points. *)
Definition pystr : Type := list N.

(** A source literal (all literals of the two files used here are ASCII). *)
Definition lit (s : string) : pystr := map N_of_ascii (list_ascii_of_string s).

(** The double quote character, which the metadata f-string of app.py emits. *)
Definition dquote : pystr := [34].
(** The line feed of the multi-line messages of app.py. *)
Definition newline : pystr := [10].

(** [str.isspace] on one code point: the characters [str.strip] removes when
    called without argument. *)
Definition isspace (c : N) : bool :=
  ((9 <=? c) && (c <=? 13)) || ((28 <=? c) && (c <=? 32))
  || (c =? 133) || (c =? 160) || (c =? 5760)
  || ((8192 <=? c) && (c <=? 8202))
  || (c =? 8232) || (c =? 8233) || (c =? 8239) || (c =? 8287) || (c =? 12288).

Fixpoint dropwhile (p : N -> bool) (s : pystr) : pystr :=
  match s with
  | [] => []
  | c :: s' => if p c then dropwhile p s' else s
  end.

Definition lstrip (s : pystr) : pystr := dropwhile isspace s.
Definition rstrip (s : pystr) : pystr := rev (dropwhile isspace (rev s)).
(** [s.strip()] *)
Definition strip (s : pystr) : pystr := rstrip (lstrip s).

Local Close Scope N_scope.

(** ** Python values *)

(** The values [json.loads] returns. *)
Inductive pyval : Type :=
| PNone
| PBool (b : bool)
| PInt (z : Z)
| PFloat (f : spec_float)
| PStr (s : pystr)
| PList (l : list pyval)
| PDict (d : gmap pystr pyval).

(** [bool(v)], the test of [if v] and [not v]. *)
Definition truthy (v : pyval) : bool :=
  match v with
  | PNone => false
  | PBool b => b
  | PInt z => negb (z =? 0)%Z
  | PFloat (S754_zero _) => false
  | PFloat _ => true
  | PStr s => match s with [] => false | _ => true end
  | PList l => match l with [] => false | _ => true end
  | PDict d => negb (bool_decide (d = ∅))
  end.

(** ** Exceptions *)

Inductive exn : Type :=
| TwirpError (message : pystr) (metadata : gmap pystr pystr)
| JSONDecodeError
| KeyError (key : pystr)
| TypeError
| AttributeError
| CalledProcessError (stderr stdout : pystr)
| FileNotFoundError
| OtherException (name : pystr).

(** [except api.TwirpError] *)
Definition is_TwirpError (e : exn) : bool :=
  match e with TwirpError _ _ => true | _ => false end.
(** [e.message] and [e.metadata] of a [TwirpError]. *)
Definition twirp_message (e : exn) : pystr :=
  match e with TwirpError message _ => message | _ => [] end.
Definition twirp_metadata (e : exn) : gmap pystr pystr :=
  match e with TwirpError _ metadata => metadata | _ => ∅ end.
(** [e.stderr] and [e.stdout] of a [CalledProcessError]. *)
Definition process_stderr (e : exn) : pystr :=
  match e with CalledProcessError stderr _ => stderr | _ => [] end.
Definition process_stdout (e : exn) : pystr :=
  match e with CalledProcessError _ stdout => stdout | _ => [] end.
(** [except subprocess.CalledProcessError] *)
Definition is_CalledProcessError (e : exn) : bool :=
  match e with CalledProcessError _ _ => true | _ => false end.
(** [except FileNotFoundError] *)
Definition is_FileNotFoundError (e : exn) : bool :=
  match e with FileNotFoundError => true | _ => false end.
(** [except Exception]: every exception of the model. *)
Definition is_Exception (e : exn) : bool := true.

Inductive outcome (A : Type) : Type :=
| Return (a : A)
| Raise (e : exn).
Arguments Return {A} a.
Arguments Raise {A} e.

(** [v[k]] for a [str] key [k]: a dict is looked up, any other JSON value
    refuses the subscript. *)
Definition getitem (v : pyval) (k : pystr) : outcome pyval :=
  match v with
  | PDict d => match d !! k with Some x => Return x | None => Raise (KeyError k) end
  | _ => Raise TypeError
  end.

(** [k in v] for a dict: the key is present. *)
Definition has_key (v : pyval) (k : pystr) : bool :=
  match v with
  | PDict d => bool_decide (is_Some (d !! k))
  | _ => false
  end.

(** ** f-strings *)

(** The pieces of an f-string: literal text and interpolated values. *)
Inductive frag : Type :=
| Lit (s : pystr)
| Interp (v : pyval)
| InterpExn (e : exn).

Definition fstring : Type := list frag.

(** [d.get(k)] on a [dict[str, str]], interpolated: the value or [None]. *)
Definition get_str (d : gmap pystr pystr) (k : pystr) : pyval :=
  match d !! k with Some s => PStr s | None => PNone end.

(** ** Computations *)

Section Computations.
(** [E]: the events of the trace; [X]: the object the code runs on. *)
Context {E X : Type}.

Record run (A : Type) : Type := Run {
  obj : X;
  emitted : list E;
  result : outcome A
}.
Arguments Run {A}.
Arguments obj {A}.
Arguments emitted {A}.
Arguments result {A}.

(** A computation starts from the object and the events so far. *)
Definition M (A : Type) : Type := X -> list E -> run A.

Definition ret {A} (a : A) : M A := fun x _ => Run x [] (Return a).

Definition raise {A} (e : exn) : M A := fun x _ => Run x [] (Raise e).

Definition lift {A} (o : outcome A) : M A := fun x _ => Run x [] o.

Definition bind {A B} (m : M A) (k : A -> M B) : M B := fun x h =>
  match m x h with
  | Run x' evs (Return a) =>
      match k a x' (h ++ evs) with
      | Run x'' evs' res => Run x'' (evs ++ evs') res
      end
  | Run x' evs (Raise e) => Run x' evs (Raise e)
  end.

(** One [except <class> as e: handler e] clause. *)
Definition clause (A : Type) : Type := (exn -> bool) * (exn -> M A).

(** The first clause whose class matches the exception. *)
Fixpoint find_clause {A} (clauses : list (clause A)) (e : exn)
    : option (exn -> M A) :=
  match clauses with
  | [] => None
  | (catches, handler) :: rest =>
      if catches e then Some handler else find_clause rest e
  end.

(** [try: body  except ...: ...  except ...: ...].  What the body did
    before raising stays done; an exception no clause matches, or one a
    handler raises, propagates. *)
Definition try_except {A} (body : M A) (clauses : list (clause A)) : M A :=
  fun x h =>
    match body x h with
    | Run x' evs (Return a) => Run x' evs (Return a)
    | Run x' evs (Raise e) =>
        match find_clause clauses e with
        | Some handler =>
            match handler e x' (h ++ evs) with
            | Run x'' evs' res => Run x'' (evs ++ evs') res
            end
        | None => Run x' evs (Raise e)
        end
    end.

Definition emit (e : E) : M unit := fun x _ => Run x [e] (Return tt).

Definition get_obj : M X := fun x _ => Run x [] (Return x).

Definition set_obj (x' : X) : M unit := fun _ _ => Run x' [] (Return tt).
End Computations.

Arguments run : clear implicits.
Arguments M : clear implicits.
Arguments Run {E X A}.
Arguments obj {E X A} r.
Arguments emitted {E X A} r.
Arguments result {E X A} r.

Declare Scope py_scope.
Delimit Scope py_scope with py.
Notation "x <- m ;; k" := (bind m (fun x => k))
  (at level 100, m at next level, k at level 200, right associativity) : py_scope.
Notation "m ;; k" := (bind m (fun _ => k))
  (at level 100, k at level 200, right associativity) : py_scope.
Local Open Scope py_scope.

(** ** The agent framework, as agent.py sees it *)

Record RemoteParticipant : Type := { identity : pystr }.

(** The handle of a speech the agent is playing ([session.current_speech]). *)
Record SpeechHandle : Type := { speech_id : N }.

(** [api.CreateSIPParticipantRequest(...)], with the fields the entrypoint
    fills in. *)
Record CreateSIPParticipantRequest : Type := {
  create_room_name : pystr;
  sip_trunk_id : option pystr;
  sip_call_to : pyval;
  sip_number : pystr;
  create_participant_identity : pyval;
  wait_until_answered : bool
}.

(** [api.TransferSIPParticipantRequest(...)] *)
Record TransferSIPParticipantRequest : Type := {
  transfer_room_name : pystr;
  transfer_participant_identity : pystr;
  transfer_to : fstring
}.

(** The requests the code makes to the framework and awaits (or, for the
    constructors, evaluates).  Building the request object is part of the
    request: a request whose object the framework refuses to build is a
    request that raises. *)
Inductive call : Type :=
| CtxConnect
| NewAgentSession
| CreateSIPParticipant (req : CreateSIPParticipantRequest)
| AwaitSessionStarted
| WaitForParticipant (identity : pyval)
| GenerateReply (instructions : pystr)
| TransferSIPParticipant (req : TransferSIPParticipantRequest)
| DeleteRoom (room : pystr)
| WaitForPlayout (speech : SpeechHandle)
| Sleep (seconds : Z).

Inductive level : Type := INFO | ERROR.

(** What a run leaves behind, in program order.  [Called c None]: the
    request [c] was made and returned; [Called c (Some e)]: it was made and
    raised [e].  [CreateTaskSessionStart]: [session.start(...)] was handed to
    [asyncio.create_task]; [CurrentSpeech s]: [session.current_speech] was
    read and was [s]. *)
Inductive event : Type :=
| Log (lvl : level) (msg : fstring)
| NewOutboundCaller (dial_info : pyval)
| CreateTaskSessionStart
| CurrentSpeech (speech : option SpeechHandle)
| Called (c : call) (exc : option exn)
| CtxShutdown.

(** The framework's side of every request: given the events so far, whether
    the request returns ([None]) or raises. *)
Record Framework : Type := {
  fw_connect : list event -> option exn;
  fw_new_agent_session : list event -> option exn;
  fw_create_sip_participant : list event -> CreateSIPParticipantRequest -> option exn;
  fw_session_started : list event -> option exn;
  fw_wait_for_participant : list event -> pyval -> outcome RemoteParticipant;
  fw_generate_reply : list event -> pystr -> option exn;
  fw_transfer_sip_participant : list event -> TransferSIPParticipantRequest -> option exn;
  fw_delete_room : list event -> pystr -> option exn;
  fw_current_speech : list event -> option SpeechHandle;
  fw_wait_for_playout : list event -> SpeechHandle -> option exn
}.

(** [ctx.room.name] and [ctx.job.metadata] of the job the worker was given. *)
Record JobContext : Type := {
  room_name : pystr;
  job_metadata : pystr
}.

(** Make the request [c] and await it; the framework answers from the
    history: the request returns ([None]) or raises. *)
Definition request {X} (c : call) (answer : list event -> option exn) : M event X unit :=
  fun x h =>
    match answer h with
    | None => Run x [Called c None] (Return tt)
    | Some e => Run x [Called c (Some e)] (Raise e)
    end.

(** A request that returns a value. *)
Definition request_value {X B} (c : call) (answer : list event -> outcome B)
    : M event X B :=
  fun x h =>
    match answer h with
    | Return b => Run x [Called c None] (Return b)
    | Raise e => Run x [Called c (Some e)] (Raise e)
    end.

(** Read [session.current_speech]. *)
Definition read_current_speech {X} (answer : list event -> option SpeechHandle)
    : M event X (option SpeechHandle) :=
  fun x h =>
    match answer h with
    | Some speech => Run x [CurrentSpeech (Some speech)] (Return (Some speech))
    | None => Run x [CurrentSpeech None] (Return None)
    end.

(** [logger.info(...)] and [logger.error(...)] *)
Definition logger {X} (lvl : level) (msg : fstring) : M event X unit :=
  emit (Log lvl msg).

(** ** agent.py *)

(** The state of an [OutboundCaller] that its own methods read and write.
    The prompt passed to the superclass is a constant of the framework's
    side and is not kept here. *)
Record OutboundCaller : Type := {
  participant : option RemoteParticipant;
  dial_info : pyval
}.

(** [OutboundCaller(name=..., appointment_time=..., dial_info=dial_info)]:
    the first two arguments are not stored. *)
Definition OutboundCaller_init (name appointment_time : pystr) (dial_info : pyval)
    : OutboundCaller :=
  {| participant := None; dial_info := dial_info |}.

Definition set_participant (self : OutboundCaller) (p : RemoteParticipant)
    : OutboundCaller :=
  {| participant := Some p; dial_info := dial_info self |}.

Section Agent.
Variable fw : Framework.
(** [get_job_context()] in the tools, [ctx] in the entrypoint. *)
Variable job_ctx : JobContext.
(** [os.getenv("SIP_OUTBOUND_TRUNK_ID")] *)
Variable outbound_trunk_id : option pystr.
(** [json.loads]: [None] stands for [json.JSONDecodeError]. *)
Variable json_loads : pystr -> option pyval.

(** [self.participant.identity]: an [AttributeError] while no participant
    is set. *)
Definition participant_identity : M event OutboundCaller pystr :=
  self <- get_obj ;;
  match participant self with
  | Some p => ret (identity p)
  | None => raise AttributeError
  end.

Definition generate_reply (instructions : pystr) : M event OutboundCaller unit :=
  request (GenerateReply instructions)
          (fun h => fw_generate_reply fw h instructions).

(** Helper function to hang up the call by deleting the room *)
Definition hangup : M event OutboundCaller unit :=
  request (DeleteRoom (room_name job_ctx))
          (fun h => fw_delete_room fw h (room_name job_ctx)).

(** Transfer the call to a human agent.  The tool returns the refusal
    string, or [None] when it runs to its end. *)
Definition transfer_call : M event OutboundCaller pyval :=
  self <- get_obj ;;
  transfer_to <- lift (getitem (dial_info self) (lit "transfer_to")) ;;
  if negb (truthy transfer_to) then
    ret (PStr (lit "cannot transfer call"))
  else
    logger INFO [Lit (lit "transferring call to "); Interp transfer_to] ;;
    generate_reply (lit "let the user know you'll be transferring them") ;;
    try_except
      (ident <- participant_identity ;;
       let req := {| transfer_room_name := room_name job_ctx;
                     transfer_participant_identity := ident;
                     transfer_to := [Lit (lit "tel:"); Interp transfer_to] |} in
       request (TransferSIPParticipant req)
               (fun h => fw_transfer_sip_participant fw h req) ;;
       logger INFO [Lit (lit "transferred call to "); Interp transfer_to])
      [(is_Exception, fun e =>
         logger ERROR [Lit (lit "error transferring call: "); InterpExn e] ;;
         generate_reply (lit "there was an error transferring the call.") ;;
         hangup)] ;;
    ret PNone.

(** Called when the user wants to end the call *)
Definition end_call : M event OutboundCaller pyval :=
  ident <- participant_identity ;;
  logger INFO [Lit (lit "ending the call for "); Interp (PStr ident)] ;;
  current_speech <- read_current_speech (fw_current_speech fw) ;;
  match current_speech with
  | Some speech =>
      request (WaitForPlayout speech)
              (fun h => fw_wait_for_playout fw h speech)
  | None => ret tt
  end ;;
  hangup ;;
  ret PNone.

(** [asyncio.sleep(seconds)]: it returns (it can only be cancelled). *)
Definition sleep (seconds : Z) : M event OutboundCaller unit :=
  emit (Called (Sleep seconds) None).

(** Called when the user asks about alternative appointment availability *)
Definition look_up_availability (date : pystr) : M event OutboundCaller pyval :=
  ident <- participant_identity ;;
  logger INFO [Lit (lit "looking up availability for "); Interp (PStr ident);
               Lit (lit " on "); Interp (PStr date)] ;;
  sleep 3 ;;
  ret (PDict {[ lit "available_times" :=
                  PList [PStr (lit "1pm"); PStr (lit "2pm"); PStr (lit "3pm")] ]}).

(** Called when the user confirms their appointment on a specific date *)
Definition confirm_appointment (date time : pystr) : M event OutboundCaller pyval :=
  ident <- participant_identity ;;
  logger INFO [Lit (lit "confirming appointment for "); Interp (PStr ident);
               Lit (lit " on "); Interp (PStr date);
               Lit (lit " at "); Interp (PStr time)] ;;
  ret (PStr (lit "reservation confirmed")).

(** Called when the call reaches voicemail *)
Definition detected_answering_machine : M event OutboundCaller pyval :=
  ident <- participant_identity ;;
  logger INFO [Lit (lit "detected answering machine for "); Interp (PStr ident)] ;;
  hangup ;;
  ret PNone.

(** The request that dials [phone_number]. *)
Definition dial_request (phone_number participant_identity : pyval)
    : CreateSIPParticipantRequest :=
  {| create_room_name := room_name job_ctx;
     sip_trunk_id := outbound_trunk_id;
     sip_call_to := phone_number;
     sip_number := lit "+17345214522";
     create_participant_identity := participant_identity;
     wait_until_answered := true |}.

(** The job's entry routine.  It runs on the slot of its local variable
    [agent]: empty until the agent is constructed. *)
Definition entrypoint : M event (option OutboundCaller) unit :=
  logger INFO [Lit (lit "connecting to room "); Interp (PStr (room_name job_ctx))] ;;
  request CtxConnect (fw_connect fw) ;;
  dial_info <- match json_loads (job_metadata job_ctx) with
               | Some v => ret v
               | None => raise JSONDecodeError
               end ;;
  phone_number <- lift (getitem dial_info (lit "phone_number")) ;;
  let participant_identity := phone_number in
  let agent := OutboundCaller_init (lit "Jayden") (lit "next Tuesday at 3pm") dial_info in
  emit (NewOutboundCaller dial_info) ;;
  set_obj (Some agent) ;;
  request NewAgentSession (fw_new_agent_session fw) ;;
  emit CreateTaskSessionStart ;;
  try_except
    (let req := dial_request phone_number participant_identity in
     request (CreateSIPParticipant req)
             (fun h => fw_create_sip_participant fw h req) ;;
     request AwaitSessionStarted (fw_session_started fw) ;;
     participant <- request_value (WaitForParticipant participant_identity)
                      (fun h => fw_wait_for_participant fw h participant_identity) ;;
     logger INFO [Lit (lit "participant joined: "); Interp (PStr (identity participant))] ;;
     set_obj (Some (set_participant agent participant)))
    [(is_TwirpError, fun e =>
       logger ERROR [Lit (lit "error creating SIP participant: ");
                     Interp (PStr (twirp_message e));
                     Lit (lit ", SIP status: ");
                     Interp (get_str (twirp_metadata e) (lit "sip_status_code"));
                     Lit (lit " ");
                     Interp (get_str (twirp_metadata e) (lit "sip_status"))] ;;
       emit CtxShutdown)].
End Agent.

(** ** app.py: the dispatch form *)

Module App.

(** [subprocess.CompletedProcess] with the captured text output. *)
Record CompletedProcess : Type := {
  proc_stdout : pystr;
  proc_stderr : pystr
}.

(** What a click leaves behind: the Streamlit messages shown and the
    subprocess started. *)
Inductive ui_event : Type :=
| StError (msg : fstring)
| StInfo (msg : fstring)
| StSuccess (msg : fstring)
| StWarning (msg : fstring)
| SubprocessRun (command : list pystr) (env : gmap pystr pystr).

(** The process the form runs in. *)
Record Host : Type := {
  (** [os.environ] *)
  os_environ : gmap pystr pystr;
  (** [os.path.abspath(os.path.join(os.getcwd(), "bin"))] *)
  bin_dir : pystr;
  (** [os.pathsep] *)
  os_pathsep : pystr;
  (** [subprocess.run(command, capture_output=True, text=True, check=True, env=env)] *)
  subprocess_run : list pystr -> gmap pystr pystr -> outcome CompletedProcess
}.

Section Form.
Variable host : Host.
(** The contents of the two text inputs. *)
Variables phone_number transfer_to_number : pystr.

(** The metadata string with the input phone numbers. *)
Definition metadata : pystr :=
  lit "{" ++ dquote ++ lit "phone_number" ++ dquote ++ lit ": "
    ++ dquote ++ phone_number ++ dquote ++ lit ", "
    ++ dquote ++ lit "transfer_to" ++ dquote ++ lit ": "
    ++ dquote ++ transfer_to_number ++ dquote ++ lit "}".

Definition command : list pystr :=
  [lit "lk"; lit "dispatch"; lit "create"; lit "--new-room";
   lit "--agent-name"; lit "outbound-caller"; lit "--metadata"; metadata].

(** [env["PATH"]] *)
Definition env_PATH (env : gmap pystr pystr) : outcome pystr :=
  match env !! lit "PATH" with
  | Some p => Return p
  | None => Raise (KeyError (lit "PATH"))
  end.

(** The body of [if st.button("Dispatch Call"):], run on a click. *)
Definition dispatch_call : M ui_event unit unit :=
  if negb (truthy (PStr (strip phone_number))) then
    emit (StError [Lit (lit "Please enter a phone number to call.")])
  else
    let env := os_environ host in
    old_path <- lift (env_PATH env) ;;
    let env := <[ lit "PATH" := bin_dir host ++ os_pathsep host ++ old_path ]> env in
    emit (StInfo [Lit (lit "Dispatching call to "); Interp (PStr phone_number);
                  Lit (lit "...")]) ;;
    try_except
      (emit (SubprocessRun command env) ;;
       result <- lift (subprocess_run host command env) ;;
       emit (StSuccess [Lit (lit "Call dispatched successfully! ");
                        Lit newline; Lit (lit "Output:"); Lit newline;
                        Interp (PStr (proc_stdout result))]) ;;
       if truthy (PStr (proc_stderr result)) then
         emit (StWarning [Lit (lit "Warnings/Errors from dispatch command:");
                          Lit newline; Interp (PStr (proc_stderr result))])
       else ret tt)
      [(is_CalledProcessError, fun e =>
          emit (StError [Lit (lit "Failed to dispatch call. Error:");
                         Lit newline; Interp (PStr (process_stderr e));
                         Lit newline; Interp (PStr (process_stdout e))]));
       (is_FileNotFoundError, fun _ =>
          emit (StError [Lit (lit "LiveKit CLI (lk) not found. Please ensure it's installed and in your system's PATH.")]));
       (is_Exception, fun e =>
          emit (StError [Lit (lit "An unexpected error occurred: "); InterpExn e]))].

(** One run of the script: the handler runs when the button was clicked.
    The calls before the button only draw the page and the inputs. *)
Definition app (clicked : bool) : M ui_event unit unit :=
  if clicked then dispatch_call else ret tt.
End Form.

End App.

(** ** Reading traces *)

Fixpoint count {E} (p : E -> bool) (evs : list E) : nat :=
  match evs with
  | [] => 0
  | e :: evs' => (if p e then 1 else 0) + count p evs'
  end.

(** [all_preceded p q seen evs]: every event of [evs] that satisfies [q]
    comes after one that satisfies [p] ([seen]: one came before [evs]). *)
Fixpoint all_preceded {E} (p q : E -> bool) (seen : bool) (evs : list E) : bool :=
  match evs with
  | [] => true
  | e :: evs' => implb (q e) seen && all_preceded p q (seen || p e) evs'
  end.

(** A request to delete a room. *)
Definition deletes_room (e : event) : bool :=
  match e with Called (DeleteRoom _) _ => true | _ => false end.


(** The construction of the agent. *)
Definition constructs_agent (e : event) : bool :=
  match e with NewOutboundCaller _ => true | _ => false end.

(** The construction of the session, the task that starts it, its await. *)
Definition starts_session (e : event) : bool :=
  match e with
  | Called NewAgentSession _ | CreateTaskSessionStart | Called AwaitSessionStarted _ => true
  | _ => false
  end.

(** The request that dials. *)
Definition requests_dial (e : event) : bool :=
  match e with Called (CreateSIPParticipant _) _ => true | _ => false end.

(** The dial request returned: the callee answered. *)
Definition dial_returned (e : event) : bool :=
  match e with Called (CreateSIPParticipant _) None => true | _ => false end.

(** [await session_started] returned: the session start completed. *)
Definition session_start_returned (e : event) : bool :=
  match e with Called AwaitSessionStarted None => true | _ => false end.

(** The participant lookup was issued. *)
Definition requests_lookup (e : event) : bool :=
  match e with Called (WaitForParticipant _) _ => true | _ => false end.

(** What the entrypoint's [except api.TwirpError] clause does. *)
Definition handles_sip_error (e : event) : bool :=
  match e with Log ERROR _ | CtxShutdown => true | _ => false end.

Definition is_log (e : event) : bool :=
  match e with Log _ _ => true | _ => false end.

(** The form started the dispatch command. *)
Definition runs_subprocess (e : App.ui_event) : bool :=
  match e with App.SubprocessRun _ _ => true | _ => false end.


(** The announcement of the transfer error was requested and returned. *)
Definition error_announced (evs : list event) : Prop :=
  In (Called (GenerateReply (lit "there was an error transferring the call.")) None) evs.



(** The log line of [end_call] for the participant [p]. *)
Definition end_call_log (p : RemoteParticipant) : event :=
  Log INFO [Lit (lit "ending the call for "); Interp (PStr (identity p))].

(** The wait for the playout of the speech in progress, when it returns:
    nothing to wait for when no speech is in progress. *)
Definition playout_wait (speech : option SpeechHandle) : list event :=
  match speech with
  | Some s => [Called (WaitForPlayout s) None]
  | None => []
  end.

(** The reply of [look_up_availability]. *)
Definition available_times : pyval :=
  PDict {[ lit "available_times" :=
             PList [PStr (lit "1pm"); PStr (lit "2pm"); PStr (lit "3pm")] ]}.

(** The phone number field is empty or holds only whitespace. *)
Definition blank (s : pystr) : bool := forallb isspace s.

(** ** Sample jobs, frameworks and hosts *)

Definition sample_phone : pystr := lit "+15550100".
Definition sample_transfer : pystr := lit "+15550199".

Definition sample_dial_info : pyval :=
  PDict {[ lit "phone_number" := PStr sample_phone;
           lit "transfer_to" := PStr sample_transfer ]}.

(** A job whose [transfer_to] is the empty string. *)
Definition sample_dial_info_no_transfer : pyval :=
  PDict {[ lit "phone_number" := PStr sample_phone;
           lit "transfer_to" := PStr [] ]}.

(** The metadata the form builds for the sample numbers. *)
Definition sample_metadata : pystr := App.metadata sample_phone sample_transfer.

(** A parser that knows the sample metadata and rejects everything else. *)
Definition sample_json_loads (s : pystr) : option pyval :=
  if bool_decide (s = sample_metadata) then Some sample_dial_info else None.

Definition sample_job : JobContext :=
  {| room_name := lit "room-1"; job_metadata := sample_metadata |}.

(** A job dispatched with an empty metadata string. *)
Definition sample_job_no_metadata : JobContext :=
  {| room_name := lit "room-1"; job_metadata := [] |}.

Definition sample_participant : RemoteParticipant := {| identity := sample_phone |}.

(** The agent of an established call. *)
Definition sample_agent : OutboundCaller :=
  set_participant (OutboundCaller_init (lit "Jayden") (lit "next Tuesday at 3pm")
                                       sample_dial_info)
                  sample_participant.

Definition sample_agent_no_transfer : OutboundCaller :=
  set_participant (OutboundCaller_init (lit "Jayden") (lit "next Tuesday at 3pm")
                                       sample_dial_info_no_transfer)
                  sample_participant.

Definition sample_speech : SpeechHandle := {| speech_id := 1%N |}.

(** A framework given by what the dial and the transfer answer, what a reply
    request answers, and the speech in progress; every other request
    returns. *)
Definition framework (dial transfer : option exn)
    (reply : list event -> pystr -> option exn)
    (speech : option SpeechHandle) : Framework :=
  {| fw_connect := fun _ => None;
     fw_new_agent_session := fun _ => None;
     fw_create_sip_participant := fun _ _ => dial;
     fw_session_started := fun _ => None;
     fw_wait_for_participant := fun _ _ => Return sample_participant;
     fw_generate_reply := reply;
     fw_transfer_sip_participant := fun _ _ => transfer;
     fw_delete_room := fun _ _ => None;
     fw_current_speech := fun _ => speech;
     fw_wait_for_playout := fun _ _ => None |}.

Definition sip_busy : exn :=
  TwirpError (lit "sip call failed") {[ lit "sip_status_code" := lit "486" ]}.

(** Every request returns; the agent is speaking. *)
Definition fw_ok : Framework :=
  framework None None (fun _ _ => None) (Some sample_speech).

(** The callee is busy: the dial raises a [TwirpError]. *)
Definition fw_dial_rejected : Framework :=
  framework (Some sip_busy) None (fun _ _ => None) None.

(** The dial request times out: it raises, and not a [TwirpError]. *)
Definition fw_dial_times_out : Framework :=
  framework (Some (OtherException (lit "TimeoutError"))) None (fun _ _ => None) None.



Definition sample_host : App.Host :=
  {| App.os_environ := {[ lit "PATH" := lit "/usr/bin" ]};
     App.bin_dir := lit "/srv/app/bin";
     App.os_pathsep := lit ":";
     App.subprocess_run := fun _ _ =>
       Return {| App.proc_stdout := lit "dispatched"; App.proc_stderr := [] |} |}.

(** A process started without PATH in its environment. *)
Definition sample_host_no_path : App.Host :=
  {| App.os_environ := ∅;
     App.bin_dir := lit "/srv/app/bin";
     App.os_pathsep := lit ":";
     App.subprocess_run := App.subprocess_run sample_host |}.

Definition run_entrypoint_ok : run event (option OutboundCaller) unit :=
  entrypoint fw_ok sample_job None sample_json_loads None [].
Definition run_dial_rejected : run event (option OutboundCaller) unit :=
  entrypoint fw_dial_rejected sample_job None sample_json_loads None [].
Definition run_dial_times_out : run event (option OutboundCaller) unit :=
  entrypoint fw_dial_times_out sample_job None sample_json_loads None [].
Definition run_no_metadata : run event (option OutboundCaller) unit :=
  entrypoint fw_ok sample_job_no_metadata None sample_json_loads None [].

(** ** More ways to read a trace *)

(** A SIP transfer request. *)
Definition requests_transfer (e : event) : bool :=
  match e with Called (TransferSIPParticipant _) _ => true | _ => false end.

(** A request for a spoken reply. *)
Definition requests_reply (e : event) : bool :=
  match e with Called (GenerateReply _) _ => true | _ => false end.

(** A spoken reply that was played to its end. *)
Definition reply_returned (e : event) : bool :=
  match e with Called (GenerateReply _) None => true | _ => false end.

(** Any request to the framework other than the pause of
    [look_up_availability]. *)
Definition touches_call (e : event) : bool :=
  match e with
  | Called (Sleep _) _ | Log _ _ => false
  | _ => true
  end.

Definition logs_error (e : event) : bool :=
  match e with Log ERROR _ => true | _ => false end.

Definition shuts_down (e : event) : bool :=
  match e with CtxShutdown => true | _ => false end.

(** [asyncio.create_task(session.start(...))] *)
Definition creates_session_task (e : event) : bool :=
  match e with CreateTaskSessionStart => true | _ => false end.

(** The requests the entrypoint makes inside its [try] block. *)
Definition in_try (c : call) : bool :=
  match c with
  | CreateSIPParticipant _ | AwaitSessionStarted | WaitForParticipant _ => true
  | _ => false
  end.

(** A request that raised. *)
Definition request_raised (e : event) : bool :=
  match e with Called _ (Some _) => true | _ => false end.

Definition shows_error (e : App.ui_event) : bool :=
  match e with App.StError _ => true | _ => false end.

Definition shows_success (e : App.ui_event) : bool :=
  match e with App.StSuccess _ => true | _ => false end.

Definition shows_warning (e : App.ui_event) : bool :=
  match e with App.StWarning _ => true | _ => false end.

(** The string holds no double quote. *)
Definition no_dquote (s : pystr) : bool := forallb (fun c => negb (c =? 34)%N) s.

(** ** More sample inputs *)

(** The agent as constructed, before a participant joined. *)
Definition sample_agent_unjoined : OutboundCaller :=
  OutboundCaller_init (lit "Jayden") (lit "next Tuesday at 3pm") sample_dial_info.

(** An agent whose job metadata had no [transfer_to]. *)
Definition sample_agent_no_key : OutboundCaller :=
  set_participant
    (OutboundCaller_init (lit "Jayden") (lit "next Tuesday at 3pm")
       (PDict {[ lit "phone_number" := PStr sample_phone ]}))
    sample_participant.

(** The first announcement cannot be spoken. *)
Definition fw_reply_fails : Framework :=
  framework None None (fun _ _ => Some (OtherException (lit "RuntimeError"))) None.

(** The agent is speaking and the wait for the playout raises. *)
Definition fw_playout_fails : Framework :=
  {| fw_connect := fun _ => None;
     fw_new_agent_session := fun _ => None;
     fw_create_sip_participant := fun _ _ => None;
     fw_session_started := fun _ => None;
     fw_wait_for_participant := fun _ _ => Return sample_participant;
     fw_generate_reply := fun _ _ => None;
     fw_transfer_sip_participant := fun _ _ => None;
     fw_delete_room := fun _ _ => None;
     fw_current_speech := fun _ => Some sample_speech;
     fw_wait_for_playout := fun _ _ => Some (OtherException (lit "RuntimeError")) |}.

(** The callee answers but never shows up in the room: the lookup raises a
    [TwirpError]. *)
Definition fw_lookup_fails : Framework :=
  {| fw_connect := fun _ => None;
     fw_new_agent_session := fun _ => None;
     fw_create_sip_participant := fun _ _ => None;
     fw_session_started := fun _ => None;
     fw_wait_for_participant := fun _ _ => Raise sip_busy;
     fw_generate_reply := fun _ _ => None;
     fw_transfer_sip_participant := fun _ _ => None;
     fw_delete_room := fun _ _ => None;
     fw_current_speech := fun _ => None;
     fw_wait_for_playout := fun _ _ => None |}.

(** The dispatch command exits with an error. *)
Definition sample_host_failing : App.Host :=
  {| App.os_environ := {[ lit "PATH" := lit "/usr/bin"; lit "LIVEKIT_URL" := lit "wss://lk" ]};
     App.bin_dir := lit "/srv/app/bin";
     App.os_pathsep := lit ":";
     App.subprocess_run := fun _ _ =>
       Raise (CalledProcessError (lit "no worker") []) |}.

Definition run_transfer_ok : run event OutboundCaller pyval :=
  transfer_call fw_ok sample_job sample_agent [].
Definition run_transfer_reply_fails : run event OutboundCaller pyval :=
  transfer_call fw_reply_fails sample_job sample_agent [].
Definition run_end_call_playout_fails : run event OutboundCaller pyval :=
  end_call fw_playout_fails sample_job sample_agent [].
Definition run_lookup_fails : run event (option OutboundCaller) unit :=
  entrypoint fw_lookup_fails sample_job None sample_json_loads None [].
Definition run_click_ok : run App.ui_event unit unit :=
  App.app sample_host sample_phone sample_transfer true tt [].
Definition run_click_failing : run App.ui_event unit unit :=
  App.app sample_host_failing sample_phone sample_transfer true tt [].

(** The request a transfer on the sample call makes. *)
Definition sample_transfer_request : TransferSIPParticipantRequest :=
  {| transfer_room_name := room_name sample_job;
     transfer_participant_identity := sample_phone;
     transfer_to := [Lit (lit "tel:"); Interp (PStr sample_transfer)] |}.

(** The request that dials on the sample job. *)
Definition sample_dial_request : CreateSIPParticipantRequest :=
  dial_request sample_job None (PStr sample_phone) (PStr sample_phone).

(** The environment the form hands to the dispatch command on the sample
    host. *)
Definition sample_subprocess_env : gmap pystr pystr :=
  <[ lit "PATH" := lit "/srv/app/bin" ++ lit ":" ++ lit "/usr/bin" ]>
    (App.os_environ sample_host).

Definition sample_failing_env : gmap pystr pystr :=
  <[ lit "PATH" := lit "/srv/app/bin" ++ lit ":" ++ lit "/usr/bin" ]>
    (App.os_environ sample_host_failing).

Arguments lit : simpl never.

(** Unfold the combinators of [M] down to the framework's answers. *)
Ltac run_code :=
  unfold bind, try_except, lift, ret, raise, emit, logger, request,
    request_value, read_current_speech, get_obj, set_obj; simpl.

(** The answers a run waits for: those of the framework, and the tests on
    the data of the job. *)
Ltac is_answer a :=
  lazymatch a with
  | fw_connect _ _ => idtac
  | fw_new_agent_session _ _ => idtac
  | fw_create_sip_participant _ _ _ => idtac
  | fw_session_started _ _ => idtac
  | fw_wait_for_participant _ _ _ => idtac
  | fw_generate_reply _ _ _ => idtac
  | fw_transfer_sip_participant _ _ _ => idtac
  | fw_delete_room _ _ _ => idtac
  | fw_current_speech _ _ => idtac
  | fw_wait_for_playout _ _ _ => idtac
  | getitem _ _ => idtac
  | participant _ => idtac
  | is_TwirpError _ => idtac
  end.

(** Split a run by the answers it got, one after the other. *)
Ltac split_run :=
  run_code;
  repeat match goal with
         | |- context [match ?a with _ => _ end] =>
             is_answer a; destruct a eqn:?; simpl
         | |- context [negb (truthy ?v)] => destruct (truthy v) eqn:?; simpl
         end.

(** Two different source literals. *)
Ltac lit_clash H :=
  injection H; intros;
  match goal with H' : lit _ = lit _ |- _ => vm_compute in H'; discriminate end.

(** [H : In e l] for an explicit [l] that does not hold [e]. *)
Ltac not_in H :=
  simpl in H;
  repeat (destruct H as [H|H]; [first [discriminate H | lit_clash H]|]);
  contradiction.

(** [In e l] for an explicit [l] that holds [e]. *)
Ltac is_in := simpl; repeat (first [left; reflexivity | right]).

(** ** Facts about the Python operations *)

Lemma all_preceded_split {E} (p q : E -> bool) (evs : list E) :
  forall seen, all_preceded p q seen evs = true ->
  forall pre e post, evs = pre ++ e :: post -> q e = true ->
  seen = true \/ exists e', In e' pre /\ p e' = true.
Proof.
  induction evs as [|a evs IH]; intros seen Hall pre e post Heq Hq.
  - destruct pre; discriminate.
  - simpl in Hall. apply andb_prop in Hall as [Hhere Hrest].
    destruct pre as [|b pre]; simpl in Heq; injection Heq as -> ->.
    + rewrite Hq in Hhere. left. destruct seen; [reflexivity|discriminate].
    + destruct (IH _ Hrest pre e post eq_refl Hq) as [Hseen|(e' & Hin & Hp)].
      * apply orb_prop in Hseen as [->|Hb]; [left; reflexivity|].
        right. exists b. split; [left; reflexivity|exact Hb].
      * right. exists e'. split; [right; exact Hin|exact Hp].
Qed.

Lemma dropwhile_nil_iff (p : N -> bool) (s : pystr) :
  dropwhile p s = [] <-> forallb p s = true.
Proof.
  induction s as [|c s IH]; simpl; [tauto|].
  destruct (p c); simpl; [exact IH|].
  split; discriminate.
Qed.

Lemma dropwhile_head (p : N -> bool) (s : pystr) c s' :
  dropwhile p s = c :: s' -> p c = false.
Proof.
  induction s as [|a s IH]; simpl; [discriminate|].
  destruct (p a) eqn:Ha; [exact IH|].
  intros [= <- _]. exact Ha.
Qed.

(** [s.strip()] is empty exactly when [s] is empty or holds only
    whitespace. *)
Lemma strip_nil_iff (s : pystr) : strip s = [] <-> blank s = true.
Proof.
  unfold strip, rstrip, lstrip, blank. split.
  - intros H. apply dropwhile_nil_iff.
    apply (f_equal (@rev N)) in H. rewrite rev_involutive in H. simpl in H.
    apply dropwhile_nil_iff in H.
    destruct (dropwhile isspace s) as [|c s'] eqn:Hd; [reflexivity|].
    exfalso. apply dropwhile_head in Hd.
    rewrite forallb_forall in H.
    rewrite (H c) in Hd; [discriminate|].
    apply in_rev. rewrite rev_involutive. left. reflexivity.
  - intros H. apply dropwhile_nil_iff in H. rewrite H. reflexivity.
Qed.

(** [not s.strip()], as the form tests it. *)
Lemma not_strip_blank (s : pystr) : negb (truthy (PStr (strip s))) = blank s.
Proof.
  destruct (blank s) eqn:Hb.
  - apply strip_nil_iff in Hb. rewrite Hb. reflexivity.
  - destruct (strip s) eqn:Hs; [|reflexivity].
    apply strip_nil_iff in Hs. congruence.
Qed.

(** A value without the key refuses the subscript. *)
Lemma getitem_without_key (v : pyval) (k : pystr) :
  has_key v k = false ->
  getitem v k = Raise (KeyError k) \/ getitem v k = Raise TypeError.
Proof.
  destruct v; simpl; auto.
  destruct (d !! k) eqn:Hk; [|auto].
  intros H. apply bool_decide_eq_false in H. exfalso. apply H. eauto.
Qed.

(** ** The tools of the agent *)

Section ToolProperties.
Variable fw : Framework.
Variable job_ctx : JobContext.

(** C9.  When the configured [transfer_to] is falsy, [transfer_call]
    returns the string "cannot transfer call" and does nothing else: it
    emits no event at all (no transfer request, no reply request, no room
    deletion, not even a log line) and leaves the agent as it was. *)
Theorem transfer_call_refused (self : OutboundCaller) (h : list event) (v : pyval) :
  getitem (dial_info self) (lit "transfer_to") = Return v ->
  truthy v = false ->
  transfer_call fw job_ctx self h
  = Run self [] (Return (PStr (lit "cannot transfer call"))).
Proof.
  intros Hget Hfalsy. unfold transfer_call. run_code.
  rewrite Hget. simpl. rewrite Hfalsy. reflexivity.
Qed.


(** C4.  On a call whose participant has joined, [look_up_availability]
    returns, for every date, exactly the dict whose [available_times] are
    "1pm", "2pm", "3pm"; asked about any other date it returns the same. *)
Theorem look_up_availability_fixed (self : OutboundCaller) (h : list event)
    (p : RemoteParticipant) (date : pystr) :
  participant self = Some p ->
  result (look_up_availability date self h) = Return available_times
  /\ forall date', result (look_up_availability date' self h)
                   = result (look_up_availability date self h).
Proof.
  intros Hp. unfold look_up_availability, participant_identity, sleep. run_code.
  rewrite Hp. simpl. split; reflexivity.
Qed.

(** C5.  On a call whose participant has joined, [confirm_appointment]
    returns, for every date and time, the string "reservation confirmed";
    it leaves the agent unchanged and emits nothing but its log line (no
    request reaches the framework, nothing is stored). *)
Theorem confirm_appointment_fixed (self : OutboundCaller) (h : list event)
    (p : RemoteParticipant) (date time : pystr) :
  participant self = Some p ->
  result (confirm_appointment date time self h)
  = Return (PStr (lit "reservation confirmed"))
  /\ obj (confirm_appointment date time self h) = self
  /\ forallb is_log (emitted (confirm_appointment date time self h)) = true.
Proof.
  intros Hp. unfold confirm_appointment, participant_identity. run_code.
  rewrite Hp. simpl. repeat split; reflexivity.
Qed.

(** C6 (amended).  On a call whose participant has joined, every
    invocation of [end_call] in which the wait for the playout of the speech
    in progress does not raise does exactly this: it logs, reads the speech
    in progress from the session, waits for its playout when there is one,
    and ends with the request to delete the room of the job. *)
Theorem end_call_hangs_up (self : OutboundCaller) (h : list event)
    (p : RemoteParticipant) :
  participant self = Some p ->
  (forall speech e,
      ~ In (Called (WaitForPlayout speech) (Some e))
           (emitted (end_call fw job_ctx self h))) ->
  exists exc,
    emitted (end_call fw job_ctx self h)
    = end_call_log p
      :: CurrentSpeech (fw_current_speech fw (h ++ [end_call_log p]))
      :: playout_wait (fw_current_speech fw (h ++ [end_call_log p]))
      ++ [Called (DeleteRoom (room_name job_ctx)) exc].
Proof.
  intros Hp. unfold end_call, end_call_log, participant_identity, hangup. run_code.
  rewrite Hp. simpl. rewrite !app_nil_r.
  destruct (fw_current_speech _ _) as [speech|]; simpl.
  - destruct (fw_wait_for_playout _ _ _) as [e|]; simpl.
    + intros Hplayed. exfalso. apply (Hplayed speech e). is_in.
    + intros _. destruct (fw_delete_room _ _ _); simpl; eexists; reflexivity.
  - intros _. destruct (fw_delete_room _ _ _); simpl; eexists; reflexivity.
Qed.

End ToolProperties.

(** ** The entrypoint *)

Section EntrypointProperties.
Variable fw : Framework.
Variable job_ctx : JobContext.
Variable outbound_trunk_id : option pystr.
Variable json_loads : pystr -> option pyval.

Lemma entrypoint_order (x : option OutboundCaller) (h : list event) :
  all_preceded dial_returned requests_lookup false
    (emitted (entrypoint fw job_ctx outbound_trunk_id json_loads x h)) = true
  /\ all_preceded session_start_returned requests_lookup false
       (emitted (entrypoint fw job_ctx outbound_trunk_id json_loads x h)) = true.
Proof.
  unfold entrypoint.
  destruct (json_loads (job_metadata job_ctx)); split_run; split; reflexivity.
Qed.

(** C2.  In every run of the entrypoint, when the participant lookup
    ([wait_for_participant]) is issued, the dial request has returned and
    the await of the session start has returned: both events come before it
    in the trace. *)
Theorem lookup_after_dial_and_session_start
    (x : option OutboundCaller) (h pre post : list event) (ev : event) :
  emitted (entrypoint fw job_ctx outbound_trunk_id json_loads x h)
  = pre ++ ev :: post ->
  requests_lookup ev = true ->
  (exists e, In e pre /\ dial_returned e = true)
  /\ (exists e, In e pre /\ session_start_returned e = true).
Proof.
  intros Hsplit Hev.
  destruct (entrypoint_order x h) as [Hd Hs].
  split.
  - destruct (all_preceded_split _ _ _ _ Hd _ _ _ Hsplit Hev) as [|];
      [discriminate|assumption].
  - destruct (all_preceded_split _ _ _ _ Hs _ _ _ Hsplit Hev) as [|];
      [discriminate|assumption].
Qed.

(** C3 (amended).  In every run of the entrypoint in which the dial request
    raises a [TwirpError], the error is logged and the job is shut down:
    the trace ends with the failed dial, the error log line and
    [ctx.shutdown()], and the entrypoint returns. *)
Theorem dial_twirp_error_logged_and_shut_down
    (x : option OutboundCaller) (h : list event)
    (req : CreateSIPParticipantRequest) (e : exn) :
  In (Called (CreateSIPParticipant req) (Some e))
     (emitted (entrypoint fw job_ctx outbound_trunk_id json_loads x h)) ->
  is_TwirpError e = true ->
  result (entrypoint fw job_ctx outbound_trunk_id json_loads x h) = Return tt
  /\ exists pre msg,
       emitted (entrypoint fw job_ctx outbound_trunk_id json_loads x h)
       = pre ++ [Called (CreateSIPParticipant req) (Some e);
                 Log ERROR msg; CtxShutdown].
Proof.
  unfold entrypoint.
  destruct (json_loads (job_metadata job_ctx)); split_run; intros Hin Htw;
    try (not_in Hin).
  all: simpl in Hin;
    repeat (destruct Hin as [Hin|Hin]; try discriminate Hin); try contradiction;
    injection Hin as <- <-; try congruence.
  split; [reflexivity|]. eexists [_; _; _; _; _], _. reflexivity.
Qed.

(** C10.  When the job's metadata is not valid JSON, or parses to a value
    without the "phone_number" key, the entrypoint raises: the exception
    leaves it (no SIP error log, no shutdown), and no agent has been
    constructed, no session constructed or started, no dial requested. *)
Theorem bad_metadata_raises_before_setup
    (x : option OutboundCaller) (h : list event) :
  (json_loads (job_metadata job_ctx) = None
   \/ exists v, json_loads (job_metadata job_ctx) = Some v
                /\ has_key v (lit "phone_number") = false) ->
  (exists e, result (entrypoint fw job_ctx outbound_trunk_id json_loads x h) = Raise e)
  /\ obj (entrypoint fw job_ctx outbound_trunk_id json_loads x h) = x
  /\ count constructs_agent
       (emitted (entrypoint fw job_ctx outbound_trunk_id json_loads x h)) = 0
  /\ count starts_session
       (emitted (entrypoint fw job_ctx outbound_trunk_id json_loads x h)) = 0
  /\ count requests_dial
       (emitted (entrypoint fw job_ctx outbound_trunk_id json_loads x h)) = 0
  /\ count handles_sip_error
       (emitted (entrypoint fw job_ctx outbound_trunk_id json_loads x h)) = 0.
Proof.
  intros Hbad. unfold entrypoint. run_code.
  destruct (fw_connect fw _) as [e|]; simpl.
  { repeat split; eauto. }
  destruct Hbad as [->|(v & -> & Hkey)]; simpl.
  { repeat split; eauto. }
  destruct (getitem_without_key _ _ Hkey) as [-> | ->]; simpl;
    repeat split; eauto.
Qed.
(** What the tool properties of the previous section assume: a run of the
    entrypoint that returns without shutting the job down leaves an agent
    whose participant is set. *)
Lemma entrypoint_sets_participant (x : option OutboundCaller) (h : list event) :
  result (entrypoint fw job_ctx outbound_trunk_id json_loads x h) = Return tt ->
  count handles_sip_error
    (emitted (entrypoint fw job_ctx outbound_trunk_id json_loads x h)) = 0 ->
  exists agent p,
    obj (entrypoint fw job_ctx outbound_trunk_id json_loads x h) = Some agent
    /\ participant agent = Some p.
Proof.
  unfold entrypoint.
  destruct (json_loads (job_metadata job_ctx)); split_run;
    intros Hreturned Hquiet; try discriminate; eauto.
Qed.
End EntrypointProperties.

(** ** The dispatch form *)

Section FormProperties.
Variable host : App.Host.
Variables phone_number transfer_to_number : pystr.

(** C8 (amended).  A click on Dispatch Call with a phone number that is empty
    or holds only whitespace shows the error "Please enter a phone number
    to call." and starts no subprocess; with any other phone number, in a
    process whose environment defines PATH, the dispatch command (carrying
    the metadata of the two numbers) is started, exactly once. *)
Theorem dispatch_gated_on_phone_number (h : list App.ui_event) :
  (blank phone_number = true ->
   emitted (App.app host phone_number transfer_to_number true tt h)
   = [App.StError [Lit (lit "Please enter a phone number to call.")]]
   /\ count runs_subprocess
        (emitted (App.app host phone_number transfer_to_number true tt h)) = 0)
  /\ (blank phone_number = false ->
      is_Some (App.os_environ host !! lit "PATH") ->
      count runs_subprocess
        (emitted (App.app host phone_number transfer_to_number true tt h)) = 1
      /\ exists env,
           In (App.SubprocessRun (App.command phone_number transfer_to_number) env)
              (emitted (App.app host phone_number transfer_to_number true tt h))).
Proof.
  unfold App.app, App.dispatch_call. rewrite not_strip_blank. split.
  - intros ->. run_code. split; reflexivity.
  - intros -> [path Hpath]. unfold App.env_PATH. rewrite Hpath. run_code.
    destruct (App.subprocess_run host _ _) as [proc|e]; simpl.
    + destruct (App.proc_stderr proc); simpl; (split; [reflexivity|]);
        eexists; right; left; reflexivity.
    + destruct e; simpl; (split; [reflexivity|]);
        eexists; right; left; reflexivity.
Qed.
End FormProperties.

(** ** The properties on concrete runs *)



(** A job that goes through: the lookup is the eighth event, after the dial
    and the await of the session start. *)
Lemma lookup_after_dial_and_session_start_witness :
  emitted run_entrypoint_ok
  = firstn 7 (emitted run_entrypoint_ok)
    ++ Called (WaitForParticipant (PStr sample_phone)) None
    :: skipn 8 (emitted run_entrypoint_ok)
  /\ requests_lookup (Called (WaitForParticipant (PStr sample_phone)) None) = true
  /\ (exists e, In e (firstn 7 (emitted run_entrypoint_ok)) /\ dial_returned e = true)
  /\ (exists e, In e (firstn 7 (emitted run_entrypoint_ok))
                /\ session_start_returned e = true).
Proof.
  assert (Hsplit : emitted run_entrypoint_ok
                   = firstn 7 (emitted run_entrypoint_ok)
                     ++ Called (WaitForParticipant (PStr sample_phone)) None
                     :: skipn 8 (emitted run_entrypoint_ok))
    by (vm_compute; reflexivity).
  split; [exact Hsplit|]. split; [reflexivity|].
  exact (lookup_after_dial_and_session_start fw_ok sample_job None
           sample_json_loads None [] _ _ _ Hsplit eq_refl).
Defined.

(** The callee is busy: the error is logged and the job shut down. *)
Lemma dial_twirp_error_logged_and_shut_down_witness :
  In (Called (CreateSIPParticipant
                (dial_request sample_job None (PStr sample_phone) (PStr sample_phone)))
             (Some sip_busy))
     (emitted run_dial_rejected)
  /\ is_TwirpError sip_busy = true
  /\ result run_dial_rejected = Return tt
  /\ exists pre msg,
       emitted run_dial_rejected
       = pre ++ [Called (CreateSIPParticipant
                           (dial_request sample_job None (PStr sample_phone)
                                         (PStr sample_phone)))
                        (Some sip_busy);
                 Log ERROR msg; CtxShutdown].
Proof.
  assert (Hin : In (Called (CreateSIPParticipant
                              (dial_request sample_job None (PStr sample_phone)
                                            (PStr sample_phone)))
                           (Some sip_busy))
                   (emitted run_dial_rejected)).
  { vm_compute. do 5 right. left. reflexivity. }
  split; [exact Hin|]. split; [reflexivity|].
  exact (dial_twirp_error_logged_and_shut_down fw_dial_rejected sample_job None
           sample_json_loads None [] _ _ Hin eq_refl).
Defined.

(** C3, as stated, fails: the dial request raises (a timeout, not a
    [TwirpError]); the entrypoint logs no error and does not shut the job
    down, the exception leaves it. *)
Lemma dial_failure_not_handled :
  In (Called (CreateSIPParticipant
                (dial_request sample_job None (PStr sample_phone) (PStr sample_phone)))
             (Some (OtherException (lit "TimeoutError"))))
     (emitted run_dial_times_out)
  /\ count handles_sip_error (emitted run_dial_times_out) = 0
  /\ result run_dial_times_out = Raise (OtherException (lit "TimeoutError")).
Proof.
  split; [vm_compute; do 5 right; left; reflexivity|].
  split; vm_compute; reflexivity.
Qed.

Lemma look_up_availability_fixed_witness :
  participant sample_agent = Some sample_participant
  /\ result (look_up_availability (lit "2025-03-14") sample_agent []) = Return available_times
  /\ forall date', result (look_up_availability date' sample_agent [])
                   = result (look_up_availability (lit "2025-03-14") sample_agent []).
Proof.
  split; [reflexivity|].
  exact (look_up_availability_fixed sample_agent [] sample_participant
           (lit "2025-03-14") eq_refl).
Defined.

Lemma confirm_appointment_fixed_witness :
  participant sample_agent = Some sample_participant
  /\ result (confirm_appointment (lit "2025-03-14") (lit "2pm") sample_agent [])
     = Return (PStr (lit "reservation confirmed"))
  /\ obj (confirm_appointment (lit "2025-03-14") (lit "2pm") sample_agent [])
     = sample_agent
  /\ forallb is_log
       (emitted (confirm_appointment (lit "2025-03-14") (lit "2pm") sample_agent []))
     = true.
Proof.
  split; [reflexivity|].
  exact (confirm_appointment_fixed sample_agent [] sample_participant
           (lit "2025-03-14") (lit "2pm") eq_refl).
Defined.

(** The agent is speaking when the user asks to end the call. *)
Lemma end_call_hangs_up_witness :
  participant sample_agent = Some sample_participant
  /\ (forall speech e,
        ~ In (Called (WaitForPlayout speech) (Some e))
             (emitted (end_call fw_ok sample_job sample_agent [])))
  /\ exists exc,
       emitted (end_call fw_ok sample_job sample_agent [])
       = [end_call_log sample_participant;
          CurrentSpeech (Some sample_speech);
          Called (WaitForPlayout sample_speech) None;
          Called (DeleteRoom (room_name sample_job)) exc].
Proof.
  assert (Hplayed : forall speech e,
             ~ In (Called (WaitForPlayout speech) (Some e))
                  (emitted (end_call fw_ok sample_job sample_agent []))).
  { intros speech e. vm_compute. intros [H|[H|[H|[H|[]]]]]; discriminate. }
  split; [reflexivity|]. split; [exact Hplayed|].
  exact (end_call_hangs_up fw_ok sample_job sample_agent [] sample_participant
           eq_refl Hplayed).
Defined.

(** C6, as stated, fails: the participant has joined, the agent is speaking
    and the wait for the playout raises; the exception leaves [end_call] and
    no room deletion is requested. *)
Lemma end_call_without_room_deletion :
  participant sample_agent = Some sample_participant
  /\ In (Called (WaitForPlayout sample_speech)
                (Some (OtherException (lit "RuntimeError"))))
        (emitted run_end_call_playout_fails)
  /\ count deletes_room (emitted run_end_call_playout_fails) = 0
  /\ result run_end_call_playout_fails = Raise (OtherException (lit "RuntimeError")).
Proof.
  split; [reflexivity|].
  split; [vm_compute; do 2 right; left; reflexivity|].
  split; vm_compute; reflexivity.
Qed.


(** A blank number is refused, a number is dispatched. *)
Lemma dispatch_gated_on_phone_number_witness :
  (blank (lit "  ") = true
   /\ emitted (App.app sample_host (lit "  ") sample_transfer true tt [])
      = [App.StError [Lit (lit "Please enter a phone number to call.")]])
  /\ (blank sample_phone = false
      /\ is_Some (App.os_environ sample_host !! lit "PATH")
      /\ count runs_subprocess
           (emitted (App.app sample_host sample_phone sample_transfer true tt []))
         = 1).
Proof.
  split.
  - split; [reflexivity|].
    exact (proj1 (proj1 (dispatch_gated_on_phone_number sample_host (lit "  ")
                           sample_transfer []) eq_refl)).
  - split; [reflexivity|].
    assert (Hpath : is_Some (App.os_environ sample_host !! lit "PATH"))
      by (exists (lit "/usr/bin"); reflexivity).
    split; [exact Hpath|].
    exact (proj1 (proj2 (dispatch_gated_on_phone_number sample_host sample_phone
                           sample_transfer []) eq_refl Hpath)).
Defined.

(** C8, as stated, fails: a phone number of one space is not empty, and the
    dispatch command is not started for it; and in a process without PATH
    the command is not started for the sample number either (the form stops
    on the [KeyError]). *)
Lemma nonempty_phone_number_not_dispatched :
  (lit " " <> []
   /\ count runs_subprocess
        (emitted (App.app sample_host (lit " ") sample_transfer true tt [])) = 0)
  /\ (sample_phone <> []
      /\ App.app sample_host_no_path sample_phone sample_transfer true tt []
         = Run tt [] (Raise (KeyError (lit "PATH")))).
Proof.
  split; (split; [vm_compute; discriminate|vm_compute; reflexivity]).
Qed.

Lemma transfer_call_refused_witness :
  getitem (dial_info sample_agent_no_transfer) (lit "transfer_to") = Return (PStr [])
  /\ truthy (PStr []) = false
  /\ transfer_call fw_ok sample_job sample_agent_no_transfer []
     = Run sample_agent_no_transfer [] (Return (PStr (lit "cannot transfer call"))).
Proof.
  assert (Hget : getitem (dial_info sample_agent_no_transfer) (lit "transfer_to")
                 = Return (PStr [])) by (vm_compute; reflexivity).
  split; [exact Hget|]. split; [reflexivity|].
  exact (transfer_call_refused fw_ok sample_job sample_agent_no_transfer []
           (PStr []) Hget eq_refl).
Defined.

(** A job dispatched with an empty metadata string. *)
Lemma bad_metadata_raises_before_setup_witness :
  sample_json_loads (job_metadata sample_job_no_metadata) = None
  /\ (exists e, result run_no_metadata = Raise e)
  /\ obj run_no_metadata = None
  /\ count constructs_agent (emitted run_no_metadata) = 0
  /\ count starts_session (emitted run_no_metadata) = 0
  /\ count requests_dial (emitted run_no_metadata) = 0
  /\ count handles_sip_error (emitted run_no_metadata) = 0.
Proof.
  assert (Hbad : sample_json_loads (job_metadata sample_job_no_metadata) = None)
    by (vm_compute; reflexivity).
  split; [exact Hbad|].
  exact (bad_metadata_raises_before_setup fw_ok sample_job_no_metadata None
           sample_json_loads None [] (or_introl Hbad)).
Defined.

(** ** Further properties of the tools *)

Section MoreToolProperties.
Variable fw : Framework.
Variable job_ctx : JobContext.

(** X1.  When the SIP transfer request returns, [transfer_call] returns
    [None] after its "transferred" log line: it requests no room deletion,
    logs no error and has asked for exactly one spoken reply. *)
Theorem transfer_success_keeps_room (self : OutboundCaller) (h : list event)
    (req : TransferSIPParticipantRequest) :
  In (Called (TransferSIPParticipant req) None)
     (emitted (transfer_call fw job_ctx self h)) ->
  result (transfer_call fw job_ctx self h) = Return PNone
  /\ count deletes_room (emitted (transfer_call fw job_ctx self h)) = 0
  /\ count logs_error (emitted (transfer_call fw job_ctx self h)) = 0
  /\ count requests_reply (emitted (transfer_call fw job_ctx self h)) = 1.
Proof.
  unfold transfer_call, generate_reply, participant_identity, hangup.
  split_run; intros Hin; try (not_in Hin); repeat split; reflexivity.
Qed.


(** X3.  When the job's [dial_info] has no "transfer_to" key,
    [transfer_call] raises on the subscript before doing anything: no
    event, the agent untouched. *)
Theorem transfer_call_missing_key (self : OutboundCaller) (h : list event) :
  has_key (dial_info self) (lit "transfer_to") = false ->
  transfer_call fw job_ctx self h
  = Run self [] (Raise (KeyError (lit "transfer_to")))
  \/ transfer_call fw job_ctx self h = Run self [] (Raise TypeError).
Proof.
  intros Hkey. unfold transfer_call. run_code.
  destruct (getitem_without_key _ _ Hkey) as [-> | ->]; auto.
Qed.

(** X4.  Whatever the framework answers, [transfer_call] leaves the agent as
    it was, requests at most one room deletion, and only ever deletes the
    room of the job. *)
Theorem transfer_call_invariants (self : OutboundCaller) (h : list event) :
  obj (transfer_call fw job_ctx self h) = self
  /\ count deletes_room (emitted (transfer_call fw job_ctx self h)) <= 1
  /\ forall room exc,
       In (Called (DeleteRoom room) exc) (emitted (transfer_call fw job_ctx self h)) ->
       room = room_name job_ctx.
Proof.
  unfold transfer_call, generate_reply, participant_identity, hangup.
  split_run; (split; [reflexivity|]); (split; [simpl; lia|]);
    intros room exc Hin; simpl in Hin; intuition congruence.
Qed.

(** X5.  The transfer is announced first: in every run of [transfer_call],
    a SIP transfer request comes after a spoken reply that was played to
    its end. *)
Theorem transfer_announced_first (self : OutboundCaller)
    (h pre post : list event) (ev : event) :
  emitted (transfer_call fw job_ctx self h) = pre ++ ev :: post ->
  requests_transfer ev = true ->
  In (Called (GenerateReply (lit "let the user know you'll be transferring them")) None)
     pre.
Proof.
  unfold transfer_call, generate_reply, participant_identity, hangup.
  split_run; intros Hsplit Hev;
    repeat (destruct pre as [|? pre]; simpl in Hsplit;
            [injection Hsplit as <- ?; try discriminate Hev
            |injection Hsplit as <- Hsplit]);
    try discriminate Hsplit; try is_in;
    destruct pre; discriminate.
Qed.

(** X6.  Every SIP transfer request [transfer_call] makes is for the room of
    the job and the participant the agent holds, and its target is "tel:"
    followed by the truthy [transfer_to] of the job's [dial_info]. *)
Theorem transfer_request_fields (self : OutboundCaller) (h : list event)
    (req : TransferSIPParticipantRequest) (exc : option exn) :
  In (Called (TransferSIPParticipant req) exc)
     (emitted (transfer_call fw job_ctx self h)) ->
  exists p v,
    participant self = Some p
    /\ getitem (dial_info self) (lit "transfer_to") = Return v
    /\ truthy v = true
    /\ req = {| transfer_room_name := room_name job_ctx;
                transfer_participant_identity := identity p;
                transfer_to := [Lit (lit "tel:"); Interp v] |}.
Proof.
  unfold transfer_call, generate_reply, participant_identity, hangup.
  split_run; intros Hin; try (not_in Hin); simpl in Hin;
    repeat (destruct Hin as [Hin|Hin]; try discriminate Hin);
    try contradiction; injection Hin as <- _; eauto 10.
Qed.

(** X7.  When the announcement of the transfer cannot be spoken, its
    exception leaves [transfer_call]: no transfer is requested and the
    room is not deleted. *)
Theorem transfer_unannounced_raises (self : OutboundCaller) (h : list event)
    (e : exn) :
  In (Called (GenerateReply (lit "let the user know you'll be transferring them"))
             (Some e))
     (emitted (transfer_call fw job_ctx self h)) ->
  result (transfer_call fw job_ctx self h) = Raise e
  /\ count requests_transfer (emitted (transfer_call fw job_ctx self h)) = 0
  /\ count deletes_room (emitted (transfer_call fw job_ctx self h)) = 0.
Proof.
  unfold transfer_call, generate_reply, participant_identity, hangup.
  split_run; intros Hin; try (not_in Hin); simpl in Hin;
    repeat (destruct Hin as [Hin|Hin]; try discriminate Hin; try (lit_clash Hin));
    try contradiction; injection Hin as <-; repeat split; reflexivity.
Qed.

(** X8.  When the wait for the playout of the speech in progress raises,
    the exception leaves [end_call] and the room is not deleted. *)
Theorem end_call_playout_failure (self : OutboundCaller) (h : list event)
    (speech : SpeechHandle) (e : exn) :
  In (Called (WaitForPlayout speech) (Some e))
     (emitted (end_call fw job_ctx self h)) ->
  result (end_call fw job_ctx self h) = Raise e
  /\ count deletes_room (emitted (end_call fw job_ctx self h)) = 0.
Proof.
  unfold end_call, participant_identity, hangup.
  split_run; intros Hin; try (not_in Hin); simpl in Hin;
    repeat (destruct Hin as [Hin|Hin]; try discriminate Hin);
    try contradiction; injection Hin as _ <-; split; reflexivity.
Qed.

(** X9.  While no participant is set, each of the four tools that log the
    participant's identity raises [AttributeError] on that log line, before
    anything else: no event is emitted (in particular the room is not
    deleted) and the agent is untouched. *)
Theorem tools_need_participant (self : OutboundCaller) (h : list event)
    (date time : pystr) :
  participant self = None ->
  end_call fw job_ctx self h = Run self [] (Raise AttributeError)
  /\ detected_answering_machine fw job_ctx self h = Run self [] (Raise AttributeError)
  /\ look_up_availability date self h = Run self [] (Raise AttributeError)
  /\ confirm_appointment date time self h = Run self [] (Raise AttributeError).
Proof.
  intros Hnone.
  unfold end_call, detected_answering_machine, look_up_availability,
    confirm_appointment, participant_identity.
  run_code. rewrite Hnone. repeat split; reflexivity.
Qed.

(** X10.  Whatever the state of the agent, [look_up_availability] and
    [confirm_appointment] leave the call alone: apart from log lines and
    the pause of the lookup they emit nothing (no reply, no transfer, no
    room deletion), and they do not change the agent. *)
Theorem lookup_and_confirm_leave_call_alone (self : OutboundCaller)
    (h : list event) (date time : pystr) :
  (count touches_call (emitted (look_up_availability date self h)) = 0
   /\ obj (look_up_availability date self h) = self)
  /\ (count touches_call (emitted (confirm_appointment date time self h)) = 0
      /\ obj (confirm_appointment date time self h) = self).
Proof.
  unfold look_up_availability, confirm_appointment, participant_identity, sleep.
  split_run; repeat split; reflexivity.
Qed.

(** X11.  Whatever the framework answers, [end_call] and
    [detected_answering_machine] leave the agent as it was, request at most
    one room deletion, and only ever delete the room of the job. *)
Theorem hangup_tools_invariants (self : OutboundCaller) (h : list event) :
  (obj (end_call fw job_ctx self h) = self
   /\ count deletes_room (emitted (end_call fw job_ctx self h)) <= 1
   /\ forall room exc,
        In (Called (DeleteRoom room) exc) (emitted (end_call fw job_ctx self h)) ->
        room = room_name job_ctx)
  /\ (obj (detected_answering_machine fw job_ctx self h) = self
      /\ count deletes_room
           (emitted (detected_answering_machine fw job_ctx self h)) <= 1
      /\ forall room exc,
           In (Called (DeleteRoom room) exc)
              (emitted (detected_answering_machine fw job_ctx self h)) ->
           room = room_name job_ctx).
Proof.
  unfold end_call, detected_answering_machine, participant_identity, hangup.
  split_run; split; (split; [reflexivity|]); (split; [simpl; lia|]);
    intros room exc Hin; simpl in Hin; intuition congruence.
Qed.
End MoreToolProperties.

(** ** Further properties of the entrypoint *)

Section MoreEntrypointProperties.
Variable fw : Framework.
Variable job_ctx : JobContext.
Variable outbound_trunk_id : option pystr.
Variable json_loads : pystr -> option pyval.

Lemma entrypoint_task_order (x : option OutboundCaller) (h : list event) :
  all_preceded creates_session_task requests_dial false
    (emitted (entrypoint fw job_ctx outbound_trunk_id json_loads x h)) = true.
Proof.
  unfold entrypoint.
  destruct (json_loads (job_metadata job_ctx)); split_run; reflexivity.
Qed.

(** X12.  The session is started before dialing: in every run of the
    entrypoint, when the dial request is made the task that starts the
    session has already been created. *)
Theorem session_task_created_before_dial
    (x : option OutboundCaller) (h pre post : list event) (ev : event) :
  emitted (entrypoint fw job_ctx outbound_trunk_id json_loads x h)
  = pre ++ ev :: post ->
  requests_dial ev = true ->
  In CreateTaskSessionStart pre.
Proof.
  intros Hsplit Hev.
  destruct (all_preceded_split _ _ _ _ (entrypoint_task_order x h) _ _ _ Hsplit Hev)
    as [|(e & Hin & He)]; [discriminate|].
  destruct e; try discriminate He. exact Hin.
Qed.

(** X13.  The number the entrypoint dials is the "phone_number" of the
    job's metadata: every dial request is the request built from that value
    (as the number to call and as the participant identity), and every
    participant lookup asks for that same identity. *)
Theorem entrypoint_dials_metadata_number
    (x : option OutboundCaller) (h : list event)
    (req : CreateSIPParticipantRequest) (exc : option exn) :
  In (Called (CreateSIPParticipant req) exc)
     (emitted (entrypoint fw job_ctx outbound_trunk_id json_loads x h)) ->
  exists dial_info number,
    json_loads (job_metadata job_ctx) = Some dial_info
    /\ getitem dial_info (lit "phone_number") = Return number
    /\ req = dial_request job_ctx outbound_trunk_id number number
    /\ forall identity exc',
         In (Called (WaitForParticipant identity) exc')
            (emitted (entrypoint fw job_ctx outbound_trunk_id json_loads x h)) ->
         identity = number.
Proof.
  unfold entrypoint.
  destruct (json_loads (job_metadata job_ctx)) as [dial_info|] eqn:Hjson;
    split_run; intros Hin; try (not_in Hin); simpl in Hin;
    repeat (destruct Hin as [Hin|Hin]; try discriminate Hin);
    try contradiction; injection Hin as <- _;
    eexists _, _; (split; [reflexivity|]); (split; [eassumption|]);
    (split; [reflexivity|]);
    intros identity exc' Hlookup; simpl in Hlookup; intuition congruence.
Qed.

(** X14.  A run of the entrypoint that returns without shutting the job
    down has constructed the agent from the parsed metadata and has set its
    participant. *)
Theorem entrypoint_establishes_call
    (x : option OutboundCaller) (h : list event) :
  result (entrypoint fw job_ctx outbound_trunk_id json_loads x h) = Return tt ->
  count shuts_down
    (emitted (entrypoint fw job_ctx outbound_trunk_id json_loads x h)) = 0 ->
  exists agent p,
    obj (entrypoint fw job_ctx outbound_trunk_id json_loads x h) = Some agent
    /\ participant agent = Some p
    /\ json_loads (job_metadata job_ctx) = Some (dial_info agent)
    /\ In (NewOutboundCaller (dial_info agent))
          (emitted (entrypoint fw job_ctx outbound_trunk_id json_loads x h)).
Proof.
  unfold entrypoint.
  destruct (json_loads (job_metadata job_ctx)) as [v|] eqn:Hjson;
    split_run; intros Hreturned Hquiet; try discriminate;
    eexists _, _; (split; [reflexivity|]); (split; [reflexivity|]);
    (split; [reflexivity|]); is_in.
Qed.

(** X15.  A [TwirpError] raised by any request of the [try] block (the
    dial, the await of the session start, the participant lookup) is
    handled the same way: the entrypoint logs an error, shuts the job down
    and returns; the agent is left without a participant. *)
Theorem twirp_error_in_try_shuts_down
    (x : option OutboundCaller) (h : list event) (c : call) (e : exn) :
  In (Called c (Some e))
     (emitted (entrypoint fw job_ctx outbound_trunk_id json_loads x h)) ->
  in_try c = true ->
  is_TwirpError e = true ->
  result (entrypoint fw job_ctx outbound_trunk_id json_loads x h) = Return tt
  /\ (exists pre msg,
        emitted (entrypoint fw job_ctx outbound_trunk_id json_loads x h)
        = pre ++ [Called c (Some e); Log ERROR msg; CtxShutdown])
  /\ exists agent,
       obj (entrypoint fw job_ctx outbound_trunk_id json_loads x h) = Some agent
       /\ participant agent = None.
Proof.
  unfold entrypoint.
  destruct (json_loads (job_metadata job_ctx)); split_run; intros Hin Htry Htw;
    try (not_in Hin); simpl in Hin;
    repeat (destruct Hin as [Hin|Hin]; try discriminate Hin);
    try contradiction; injection Hin as <- <-;
    try discriminate Htry; try congruence;
    (split; [reflexivity|]); (split; [|eexists; split; reflexivity]).
  - eexists [_; _; _; _; _], _. reflexivity.
  - eexists [_; _; _; _; _; _], _. reflexivity.
  - eexists [_; _; _; _; _; _; _], _. reflexivity.
Qed.

(** X16.  Any other exception leaves the entrypoint: when a request raises
    and it is not a [TwirpError] raised inside the [try] block (so also a
    [TwirpError] of [ctx.connect()] or of the session's construction), the
    entrypoint raises that exception, logs no error and does not shut the
    job down. *)
Theorem unhandled_exception_leaves_entrypoint
    (x : option OutboundCaller) (h : list event) (c : call) (e : exn) :
  In (Called c (Some e))
     (emitted (entrypoint fw job_ctx outbound_trunk_id json_loads x h)) ->
  in_try c && is_TwirpError e = false ->
  result (entrypoint fw job_ctx outbound_trunk_id json_loads x h) = Raise e
  /\ count handles_sip_error
       (emitted (entrypoint fw job_ctx outbound_trunk_id json_loads x h)) = 0.
Proof.
  unfold entrypoint.
  destruct (json_loads (job_metadata job_ctx)); split_run; intros Hin Hnot;
    try (not_in Hin); simpl in Hin;
    repeat (destruct Hin as [Hin|Hin]; try discriminate Hin);
    try contradiction; injection Hin as <- <-;
    simpl in Hnot; try congruence; split; reflexivity.
Qed.

(** X17.  The entrypoint never retries: in every run the dial is requested
    at most once, at most one request raises, and the job is shut down at
    most once. *)
Theorem entrypoint_never_retries (x : option OutboundCaller) (h : list event) :
  count requests_dial
    (emitted (entrypoint fw job_ctx outbound_trunk_id json_loads x h)) <= 1
  /\ count request_raised
       (emitted (entrypoint fw job_ctx outbound_trunk_id json_loads x h)) <= 1
  /\ count shuts_down
       (emitted (entrypoint fw job_ctx outbound_trunk_id json_loads x h)) <= 1.
Proof.
  unfold entrypoint.
  destruct (json_loads (job_metadata job_ctx)); split_run;
    repeat split; simpl; lia.
Qed.
End MoreEntrypointProperties.

(** ** Further properties of the dispatch form *)

(** Two strings without double quote, each followed by one, are cut at the
    same place. *)
Lemma split_at_dquote (p p' r r' : pystr) :
  no_dquote p = true -> no_dquote p' = true ->
  p ++ 34%N :: r = p' ++ 34%N :: r' ->
  p = p' /\ r = r'.
Proof.
  revert p'. induction p as [|c p IH]; intros [|c' p'] Hp Hp' Heq; simpl in *.
  - injection Heq as <-. auto.
  - injection Heq as <- _. discriminate Hp'.
  - injection Heq as -> _. discriminate Hp.
  - injection Heq as <- Heq.
    apply andb_prop in Hp as [_ Hp]. apply andb_prop in Hp' as [_ Hp'].
    destruct (IH _ Hp Hp' Heq) as [<- <-]. auto.
Qed.

Section MoreFormProperties.
Variable host : App.Host.

(** X18.  The metadata string keeps the two numbers apart as long as the
    phone numbers hold no double quote: two forms whose phone numbers are
    free of double quotes and that build the same metadata have the same
    phone number and the same transfer number. *)
Theorem metadata_injective (phone transfer phone' transfer' : pystr) :
  no_dquote phone = true ->
  no_dquote phone' = true ->
  App.metadata phone transfer = App.metadata phone' transfer' ->
  phone = phone' /\ transfer = transfer'.
Proof.
  intros Hq Hq' Heq. unfold App.metadata, dquote in Heq.
  do 6 apply app_inv_head in Heq.
  destruct (split_at_dquote _ _ _ _ Hq Hq' Heq) as [<- Hrest].
  split; [reflexivity|].
  do 6 apply app_inv_head in Hrest.
  exact (app_inv_tail _ _ _ Hrest).
Qed.

(** X19.  Whenever the form starts a subprocess, it is the dispatch command
    built from the two fields, and its environment is the process
    environment with the local bin directory put in front of PATH: PATH is
    the bin directory, the path separator, then the old PATH, and every
    other variable is passed on unchanged. *)
Theorem subprocess_environment (phone transfer : pystr) (clicked : bool)
    (h : list App.ui_event) (cmd : list pystr) (env : gmap pystr pystr) :
  In (App.SubprocessRun cmd env)
     (emitted (App.app host phone transfer clicked tt h)) ->
  clicked = true
  /\ blank phone = false
  /\ cmd = App.command phone transfer
  /\ exists old_path,
       App.os_environ host !! lit "PATH" = Some old_path
       /\ env !! lit "PATH"
          = Some (App.bin_dir host ++ App.os_pathsep host ++ old_path)
       /\ forall k, k <> lit "PATH" -> env !! k = App.os_environ host !! k.
Proof.
  unfold App.app, App.dispatch_call. rewrite not_strip_blank.
  destruct clicked; [|intros []].
  destruct (blank phone); [intros [Hin|[]]; discriminate Hin|].
  unfold App.env_PATH.
  destruct (App.os_environ host !! lit "PATH") as [old_path|] eqn:Hpath;
    run_code; [|intros []].
  intros Hin.
  assert (Hrun : App.SubprocessRun (App.command phone transfer)
                   (<[lit "PATH" := App.bin_dir host ++ App.os_pathsep host ++ old_path]>
                      (App.os_environ host))
                 = App.SubprocessRun cmd env).
  { destruct (App.subprocess_run host _ _) as [proc|e]; simpl in Hin.
    - destruct (App.proc_stderr proc); simpl in Hin;
        repeat (destruct Hin as [Hin|Hin]; try discriminate Hin);
        try contradiction; exact Hin.
    - destruct e; simpl in Hin;
        repeat (destruct Hin as [Hin|Hin]; try discriminate Hin);
        try contradiction; exact Hin. }
  injection Hrun as <- <-.
  repeat split. exists old_path. split; [reflexivity|]. split.
  - apply lookup_insert_eq.
  - intros k Hk. apply lookup_insert_ne. congruence.
Qed.

(** X20.  A failing dispatch command never makes the click raise: when
    [subprocess.run] raises (a non-zero exit, a missing executable, or any
    other exception), the handler returns, and the form shows exactly one
    error message and no success message. *)
Theorem click_reports_subprocess_failure (phone transfer : pystr)
    (h : list App.ui_event) (env : gmap pystr pystr) (e : exn) :
  blank phone = false ->
  In (App.SubprocessRun (App.command phone transfer) env)
     (emitted (App.app host phone transfer true tt h)) ->
  App.subprocess_run host (App.command phone transfer) env = Raise e ->
  result (App.app host phone transfer true tt h) = Return tt
  /\ count shows_error (emitted (App.app host phone transfer true tt h)) = 1
  /\ count shows_success (emitted (App.app host phone transfer true tt h)) = 0.
Proof.
  unfold App.app, App.dispatch_call. rewrite not_strip_blank. intros ->.
  unfold App.env_PATH.
  destruct (App.os_environ host !! lit "PATH") as [old_path|];
    run_code; [|intros []].
  destruct (App.subprocess_run host _ _) as [proc|e'] eqn:Hrun; simpl.
  - destruct (App.proc_stderr proc); simpl; intros Hin Hfail;
      repeat (destruct Hin as [Hin|Hin]; try discriminate Hin);
      try contradiction; injection Hin as <-; congruence.
  - intros _ _. destruct e'; simpl; repeat split; reflexivity.
Qed.

(** X21.  When the dispatch command succeeds, the form shows its progress
    message and the success message with the command's output, shows no
    error, and shows a warning exactly when the command wrote to its
    standard error. *)
Theorem click_reports_success (phone transfer : pystr)
    (h : list App.ui_event) (env : gmap pystr pystr) (proc : App.CompletedProcess) :
  blank phone = false ->
  In (App.SubprocessRun (App.command phone transfer) env)
     (emitted (App.app host phone transfer true tt h)) ->
  App.subprocess_run host (App.command phone transfer) env = Return proc ->
  result (App.app host phone transfer true tt h) = Return tt
  /\ count shows_success (emitted (App.app host phone transfer true tt h)) = 1
  /\ count shows_error (emitted (App.app host phone transfer true tt h)) = 0
  /\ count shows_warning (emitted (App.app host phone transfer true tt h))
     = (if truthy (PStr (App.proc_stderr proc)) then 1 else 0).
Proof.
  unfold App.app, App.dispatch_call. rewrite not_strip_blank. intros ->.
  unfold App.env_PATH.
  destruct (App.os_environ host !! lit "PATH") as [old_path|];
    run_code; [|intros []].
  destruct (App.subprocess_run host _ _) as [proc'|e'] eqn:Hrun; simpl.
  - destruct (App.proc_stderr proc') eqn:Herr; simpl; intros Hin Hok;
      repeat (destruct Hin as [Hin|Hin]; try discriminate Hin);
      try contradiction; injection Hin as <-;
      rewrite Hrun in Hok; injection Hok as <-; rewrite Herr;
      repeat split; reflexivity.
  - intros Hin Hok. exfalso. destruct e'; simpl in Hin;
      repeat (destruct Hin as [Hin|Hin]; try discriminate Hin);
      try contradiction; injection Hin as <-; congruence.
Qed.

(** X22.  In a process whose environment has no PATH, a click with a phone
    number that is not blank raises [KeyError] on [env["PATH"]] before
    anything is shown or started. *)
Theorem click_without_path_raises (phone transfer : pystr) (h : list App.ui_event) :
  blank phone = false ->
  App.os_environ host !! lit "PATH" = None ->
  App.app host phone transfer true tt h
  = Run tt [] (Raise (KeyError (lit "PATH"))).
Proof.
  intros Hphone Hpath. unfold App.app, App.dispatch_call, App.env_PATH.
  rewrite not_strip_blank, Hphone, Hpath. reflexivity.
Qed.
End MoreFormProperties.

(** ** The further properties on concrete runs *)

Lemma transfer_success_keeps_room_witness :
  In (Called (TransferSIPParticipant sample_transfer_request) None)
     (emitted run_transfer_ok)
  /\ result run_transfer_ok = Return PNone
  /\ count deletes_room (emitted run_transfer_ok) = 0.
Proof.
  assert (Hin : In (Called (TransferSIPParticipant sample_transfer_request) None)
                   (emitted run_transfer_ok))
    by (vm_compute; do 2 right; left; reflexivity).
  split; [exact Hin|].
  pose proof (transfer_success_keeps_room fw_ok sample_job sample_agent [] _ Hin)
    as (Hres & Hdel & _).
  split; [exact Hres|exact Hdel].
Defined.


Lemma transfer_call_missing_key_witness :
  has_key (dial_info sample_agent_no_key) (lit "transfer_to") = false
  /\ (transfer_call fw_ok sample_job sample_agent_no_key []
      = Run sample_agent_no_key [] (Raise (KeyError (lit "transfer_to")))
      \/ transfer_call fw_ok sample_job sample_agent_no_key []
         = Run sample_agent_no_key [] (Raise TypeError)).
Proof.
  assert (Hkey : has_key (dial_info sample_agent_no_key) (lit "transfer_to") = false)
    by (vm_compute; reflexivity).
  split; [exact Hkey|].
  exact (transfer_call_missing_key fw_ok sample_job sample_agent_no_key [] Hkey).
Defined.

Lemma transfer_announced_first_witness :
  emitted run_transfer_ok
  = firstn 2 (emitted run_transfer_ok)
    ++ Called (TransferSIPParticipant sample_transfer_request) None
    :: skipn 3 (emitted run_transfer_ok)
  /\ In (Called (GenerateReply (lit "let the user know you'll be transferring them"))
                None)
        (firstn 2 (emitted run_transfer_ok)).
Proof.
  assert (Hsplit : emitted run_transfer_ok
                   = firstn 2 (emitted run_transfer_ok)
                     ++ Called (TransferSIPParticipant sample_transfer_request) None
                     :: skipn 3 (emitted run_transfer_ok))
    by (vm_compute; reflexivity).
  split; [exact Hsplit|].
  exact (transfer_announced_first fw_ok sample_job sample_agent [] _ _ _
           Hsplit eq_refl).
Defined.

Lemma transfer_request_fields_witness :
  In (Called (TransferSIPParticipant sample_transfer_request) None)
     (emitted run_transfer_ok)
  /\ exists p v,
       participant sample_agent = Some p
       /\ getitem (dial_info sample_agent) (lit "transfer_to") = Return v
       /\ truthy v = true
       /\ sample_transfer_request
          = {| transfer_room_name := room_name sample_job;
               transfer_participant_identity := identity p;
               transfer_to := [Lit (lit "tel:"); Interp v] |}.
Proof.
  assert (Hin : In (Called (TransferSIPParticipant sample_transfer_request) None)
                   (emitted run_transfer_ok))
    by (vm_compute; do 2 right; left; reflexivity).
  split; [exact Hin|].
  exact (transfer_request_fields fw_ok sample_job sample_agent [] _ _ Hin).
Defined.

Lemma transfer_unannounced_raises_witness :
  In (Called (GenerateReply (lit "let the user know you'll be transferring them"))
             (Some (OtherException (lit "RuntimeError"))))
     (emitted run_transfer_reply_fails)
  /\ result run_transfer_reply_fails = Raise (OtherException (lit "RuntimeError"))
  /\ count requests_transfer (emitted run_transfer_reply_fails) = 0
  /\ count deletes_room (emitted run_transfer_reply_fails) = 0.
Proof.
  assert (Hin : In (Called (GenerateReply
                              (lit "let the user know you'll be transferring them"))
                           (Some (OtherException (lit "RuntimeError"))))
                   (emitted run_transfer_reply_fails))
    by (vm_compute; right; left; reflexivity).
  split; [exact Hin|].
  exact (transfer_unannounced_raises fw_reply_fails sample_job sample_agent [] _ Hin).
Defined.

Lemma end_call_playout_failure_witness :
  In (Called (WaitForPlayout sample_speech) (Some (OtherException (lit "RuntimeError"))))
     (emitted run_end_call_playout_fails)
  /\ result run_end_call_playout_fails = Raise (OtherException (lit "RuntimeError"))
  /\ count deletes_room (emitted run_end_call_playout_fails) = 0.
Proof.
  assert (Hin : In (Called (WaitForPlayout sample_speech)
                           (Some (OtherException (lit "RuntimeError"))))
                   (emitted run_end_call_playout_fails))
    by (vm_compute; do 2 right; left; reflexivity).
  split; [exact Hin|].
  exact (end_call_playout_failure fw_playout_fails sample_job sample_agent [] _ _ Hin).
Defined.

Lemma tools_need_participant_witness :
  participant sample_agent_unjoined = None
  /\ end_call fw_ok sample_job sample_agent_unjoined []
     = Run sample_agent_unjoined [] (Raise AttributeError)
  /\ detected_answering_machine fw_ok sample_job sample_agent_unjoined []
     = Run sample_agent_unjoined [] (Raise AttributeError).
Proof.
  split; [reflexivity|].
  pose proof (tools_need_participant fw_ok sample_job sample_agent_unjoined []
                (lit "2025-03-14") (lit "2pm") eq_refl) as (Hend & Hmachine & _).
  split; [exact Hend|exact Hmachine].
Defined.

Lemma session_task_created_before_dial_witness :
  emitted run_entrypoint_ok
  = firstn 5 (emitted run_entrypoint_ok)
    ++ Called (CreateSIPParticipant sample_dial_request) None
    :: skipn 6 (emitted run_entrypoint_ok)
  /\ In CreateTaskSessionStart (firstn 5 (emitted run_entrypoint_ok)).
Proof.
  assert (Hsplit : emitted run_entrypoint_ok
                   = firstn 5 (emitted run_entrypoint_ok)
                     ++ Called (CreateSIPParticipant sample_dial_request) None
                     :: skipn 6 (emitted run_entrypoint_ok))
    by (vm_compute; reflexivity).
  split; [exact Hsplit|].
  exact (session_task_created_before_dial fw_ok sample_job None sample_json_loads
           None [] _ _ _ Hsplit eq_refl).
Defined.

Lemma entrypoint_dials_metadata_number_witness :
  In (Called (CreateSIPParticipant sample_dial_request) None)
     (emitted run_entrypoint_ok)
  /\ exists dial_info number,
       sample_json_loads (job_metadata sample_job) = Some dial_info
       /\ getitem dial_info (lit "phone_number") = Return number
       /\ sample_dial_request = dial_request sample_job None number number
       /\ forall identity exc',
            In (Called (WaitForParticipant identity) exc') (emitted run_entrypoint_ok) ->
            identity = number.
Proof.
  assert (Hin : In (Called (CreateSIPParticipant sample_dial_request) None)
                   (emitted run_entrypoint_ok))
    by (vm_compute; do 5 right; left; reflexivity).
  split; [exact Hin|].
  exact (entrypoint_dials_metadata_number fw_ok sample_job None sample_json_loads
           None [] _ _ Hin).
Defined.

Lemma entrypoint_establishes_call_witness :
  result run_entrypoint_ok = Return tt
  /\ count shuts_down (emitted run_entrypoint_ok) = 0
  /\ exists agent p,
       obj run_entrypoint_ok = Some agent
       /\ participant agent = Some p
       /\ sample_json_loads (job_metadata sample_job) = Some (dial_info agent)
       /\ In (NewOutboundCaller (dial_info agent)) (emitted run_entrypoint_ok).
Proof.
  assert (Hres : result run_entrypoint_ok = Return tt) by (vm_compute; reflexivity).
  assert (Hquiet : count shuts_down (emitted run_entrypoint_ok) = 0)
    by (vm_compute; reflexivity).
  split; [exact Hres|]. split; [exact Hquiet|].
  exact (entrypoint_establishes_call fw_ok sample_job None sample_json_loads
           None [] Hres Hquiet).
Defined.

Lemma twirp_error_in_try_shuts_down_witness :
  In (Called (WaitForParticipant (PStr sample_phone)) (Some sip_busy))
     (emitted run_lookup_fails)
  /\ in_try (WaitForParticipant (PStr sample_phone)) = true
  /\ is_TwirpError sip_busy = true
  /\ result run_lookup_fails = Return tt
  /\ exists agent, obj run_lookup_fails = Some agent /\ participant agent = None.
Proof.
  assert (Hin : In (Called (WaitForParticipant (PStr sample_phone)) (Some sip_busy))
                   (emitted run_lookup_fails))
    by (vm_compute; do 7 right; left; reflexivity).
  split; [exact Hin|]. split; [reflexivity|]. split; [reflexivity|].
  pose proof (twirp_error_in_try_shuts_down fw_lookup_fails sample_job None
                sample_json_loads None [] _ _ Hin eq_refl eq_refl)
    as (Hres & _ & Hagent).
  split; [exact Hres|exact Hagent].
Defined.

Lemma unhandled_exception_leaves_entrypoint_witness :
  In (Called (CreateSIPParticipant sample_dial_request)
             (Some (OtherException (lit "TimeoutError"))))
     (emitted run_dial_times_out)
  /\ in_try (CreateSIPParticipant sample_dial_request)
     && is_TwirpError (OtherException (lit "TimeoutError")) = false
  /\ result run_dial_times_out = Raise (OtherException (lit "TimeoutError"))
  /\ count handles_sip_error (emitted run_dial_times_out) = 0.
Proof.
  assert (Hin : In (Called (CreateSIPParticipant sample_dial_request)
                           (Some (OtherException (lit "TimeoutError"))))
                   (emitted run_dial_times_out))
    by (vm_compute; do 5 right; left; reflexivity).
  split; [exact Hin|]. split; [reflexivity|].
  exact (unhandled_exception_leaves_entrypoint fw_dial_times_out sample_job None
           sample_json_loads None [] _ _ Hin eq_refl).
Defined.

Lemma metadata_injective_witness :
  no_dquote sample_phone = true
  /\ App.metadata sample_phone sample_transfer = sample_metadata
  /\ sample_phone = sample_phone /\ sample_transfer = sample_transfer.
Proof.
  split; [reflexivity|]. split; [reflexivity|].
  exact (metadata_injective sample_phone sample_transfer sample_phone
           sample_transfer eq_refl eq_refl eq_refl).
Defined.

Lemma subprocess_environment_witness :
  In (App.SubprocessRun (App.command sample_phone sample_transfer) sample_subprocess_env)
     (emitted run_click_ok)
  /\ exists old_path,
       App.os_environ sample_host !! lit "PATH" = Some old_path
       /\ sample_subprocess_env !! lit "PATH"
          = Some (App.bin_dir sample_host ++ App.os_pathsep sample_host ++ old_path)
       /\ forall k, k <> lit "PATH" ->
                    sample_subprocess_env !! k = App.os_environ sample_host !! k.
Proof.
  assert (Hin : In (App.SubprocessRun (App.command sample_phone sample_transfer)
                                      sample_subprocess_env)
                   (emitted run_click_ok))
    by (vm_compute; right; left; reflexivity).
  split; [exact Hin|].
  pose proof (subprocess_environment sample_host sample_phone sample_transfer true
                [] _ _ Hin) as (_ & _ & _ & Henv).
  exact Henv.
Defined.

Lemma click_reports_subprocess_failure_witness :
  blank sample_phone = false
  /\ In (App.SubprocessRun (App.command sample_phone sample_transfer) sample_failing_env)
        (emitted run_click_failing)
  /\ App.subprocess_run sample_host_failing
       (App.command sample_phone sample_transfer) sample_failing_env
     = Raise (CalledProcessError (lit "no worker") [])
  /\ result run_click_failing = Return tt
  /\ count shows_error (emitted run_click_failing) = 1
  /\ count shows_success (emitted run_click_failing) = 0.
Proof.
  assert (Hin : In (App.SubprocessRun (App.command sample_phone sample_transfer)
                                      sample_failing_env)
                   (emitted run_click_failing))
    by (vm_compute; right; left; reflexivity).
  split; [reflexivity|]. split; [exact Hin|]. split; [reflexivity|].
  exact (click_reports_subprocess_failure sample_host_failing sample_phone
           sample_transfer [] _ _ eq_refl Hin eq_refl).
Defined.

Lemma click_reports_success_witness :
  blank sample_phone = false
  /\ In (App.SubprocessRun (App.command sample_phone sample_transfer) sample_subprocess_env)
        (emitted run_click_ok)
  /\ App.subprocess_run sample_host
       (App.command sample_phone sample_transfer) sample_subprocess_env
     = Return {| App.proc_stdout := lit "dispatched"; App.proc_stderr := [] |}
  /\ result run_click_ok = Return tt
  /\ count shows_success (emitted run_click_ok) = 1
  /\ count shows_error (emitted run_click_ok) = 0
  /\ count shows_warning (emitted run_click_ok) = 0.
Proof.
  assert (Hin : In (App.SubprocessRun (App.command sample_phone sample_transfer)
                                      sample_subprocess_env)
                   (emitted run_click_ok))
    by (vm_compute; right; left; reflexivity).
  split; [reflexivity|]. split; [exact Hin|]. split; [reflexivity|].
  exact (click_reports_success sample_host sample_phone sample_transfer [] _ _
           eq_refl Hin eq_refl).
Defined.

Lemma click_without_path_raises_witness :
  blank sample_phone = false
  /\ App.os_environ sample_host_no_path !! lit "PATH" = None
  /\ App.app sample_host_no_path sample_phone sample_transfer true tt []
     = Run tt [] (Raise (KeyError (lit "PATH"))).
Proof.
  split; [reflexivity|]. split; [reflexivity|].
  exact (click_without_path_raises sample_host_no_path sample_phone sample_transfer
           [] eq_refl eq_refl).
Defined.
